(** * Meeting minutes actions: a shallow embedding of [src/actions/index.ts]

    The eight Astro actions ([createMeeting], [updateMeeting], [listMeetings],
    [deleteMeeting], [saveSection], [deleteSection], [saveActionItem],
    [listActionItems]) are embedded as functions in a state-and-exception
    monad over the three tables the project declares with [defineTable].

    What is embedded is each action's [handler]; the [input] schema of an
    action fixes the type of the handler's argument (the framework parses the
    request with it before the handler runs). *)

From stdpp Require Import base option strings list gmap.

Open Scope Z_scope.
Open Scope string_scope.

(** ** Tables ([Meetings], [MeetingSections], [ActionItems])

    A column declared [optional: true] is nullable and holds an [option];
    dates are milliseconds since the epoch. *)

Module Meetings.
Record row := {
  id : string;                   (* column.text({ primaryKey: true }) *)
  userId : string;
  title : string;
  sourceType : option string;
  sourceUrl : option string;
  scheduledAt : option Z;
  durationMinutes : option Z;
  createdAt : Z;
  updatedAt : Z;
}.
End Meetings.

(** [MeetingSections.id] and [ActionItems.id] are text primary keys without a
    default. The handlers below insert rows without giving an [id]; no
    identifier is produced for such a row and its [id] is SQL NULL, written
    [None]. *)

Module MeetingSections.
Record row := {
  id : option string;
  meetingId : string;
  type : string;
  orderIndex : Z;
  content : string;
  createdAt : Z;
}.
End MeetingSections.

Module ActionItems.
Record row := {
  id : option string;
  meetingId : string;
  assignee : option string;
  description : string;
  dueDate : option Z;
  status : option string;
  createdAt : Z;
  updatedAt : Z;
}.
End ActionItems.

Record Database := {
  meetings : list Meetings.row;
  meetingSections : list MeetingSections.row;
  actionItems : list ActionItems.row;
}.

(** The primary key of [Meetings]: no two rows share an [id]. *)
Definition pk_unique (ms : list Meetings.row) : Prop :=
  NoDup (Meetings.id <$> ms).

(** ** The world a handler runs in

    Besides the database a handler reads the clock ([new Date()]) and draws
    identifiers ([crypto.randomUUID()]). Both are oracles: the n-th call
    returns the n-th value of a sequence the environment fixes. *)

Record World := {
  db : Database;
  dates : nat → Z;
  date_calls : nat;
  uuids : nat → string;
  uuid_calls : nat;
}.

Definition with_db (w : World) (d : Database) : World :=
  {| db := d; dates := dates w; date_calls := date_calls w;
     uuids := uuids w; uuid_calls := uuid_calls w |}.

(** ** Errors *)

Inductive ActionErrorCode := UNAUTHORIZED | NOT_FOUND.

Inductive Error :=
  | ActionError (code : ActionErrorCode) (message : string)
  | SqliteConstraint.   (* a constraint of the schema (primary key, declared
                           reference) refused the statement; raised by the
                           database, not by a handler *)

Inductive Result (A : Type) :=
  | Ok (a : A)
  | Thrown (e : Error).
Arguments Ok {A} a.
Arguments Thrown {A} e.

(** ** The handler monad: state passing with exceptions.

    A thrown error keeps the world reached so far: the handlers run no
    transaction. *)

Definition Handler (A : Type) : Type := World → Result A * World.

Definition ret {A} (a : A) : Handler A := λ w, (Ok a, w).

Definition bind {A B} (c : Handler A) (k : A → Handler B) : Handler B :=
  λ w, match c w with
       | (Ok a, w') => k a w'
       | (Thrown e, w') => (Thrown e, w')
       end.

Definition throw {A} (e : Error) : Handler A := λ w, (Thrown e, w).

Notation "'let*' x ':=' c 'in' k" := (bind c (λ x, k))
  (at level 10, x pattern, c at level 100, k at level 200, only parsing).

Definition new_Date : Handler Z :=
  λ w, (Ok (dates w (date_calls w)),
        {| db := db w; dates := dates w; date_calls := S (date_calls w);
           uuids := uuids w; uuid_calls := uuid_calls w |}).

Definition randomUUID : Handler string :=
  λ w, (Ok (uuids w (uuid_calls w)),
        {| db := db w; dates := dates w; date_calls := date_calls w;
           uuids := uuids w; uuid_calls := S (uuid_calls w) |}).

(** ** Caller identity *)

Record User := { user_id : string }.
Record Locals := { user : option User }.
Record ActionAPIContext := { locals : option Locals }.

(** [requireUser]: [context.locals?.user], or UNAUTHORIZED. *)
Definition requireUser (context : ActionAPIContext) : Handler User :=
  match locals context ≫= user with
  | None => throw (ActionError UNAUTHORIZED
                     "You must be signed in to perform this action.")
  | Some u => ret u
  end.

(** A context in which [u] is signed in, and one with nobody. *)
Definition signed_in (u : User) : ActionAPIContext :=
  {| locals := Some {| user := Some u |} |}.

Definition unresolved (context : ActionAPIContext) : Prop :=
  locals context ≫= user = None.

(** ** The query builder

    [select], [update … set … returning], [delete … returning] and [insert …
    returning] on a table held as the list of its rows, in row order. A
    [where] clause is a decidable predicate on rows. *)

Section Query.
Context {R : Type}.

Definition select (P : R → Prop) `{!∀ r, Decision (P r)} (t : list R) : list R :=
  filter P t.

Definition limit (n : nat) (rows : list R) : list R := take n rows.

(** [const [x] = rows]: the first row, or [undefined] when there is none. *)
Definition first (rows : list R) : option R := head rows.

(** [update(…).set(…).where(…).returning()]: every matching row is rewritten
    in place; the result is the new table and the rewritten rows. *)
Definition update (set : R → R) (P : R → Prop) `{!∀ r, Decision (P r)}
    (t : list R) : list R * list R :=
  ((λ r, if decide (P r) then set r else r) <$> t, set <$> filter P t).

(** [delete(…).where(…).returning()]: the table without the matching rows,
    and the rows removed. *)
Definition delete (P : R → Prop) `{!∀ r, Decision (P r)}
    (t : list R) : list R * list R :=
  (filter (λ r, ¬ P r) t, filter P t).
End Query.

Global Arguments limit : simpl never.
Global Arguments first : simpl never.

(** [eq(column, value)] on a nullable text column: NULL equals nothing. *)
Definition eq_null (c : option string) (v : string) : Prop := c = Some v.

Global Instance eq_null_dec c v : Decision (eq_null c v).
Proof. unfold eq_null. apply _. Defined.

(** JavaScript truthiness of a string that may be [undefined]: only
    [undefined] and the empty string are falsy. *)
Definition truthy (s : option string) : bool :=
  match s with
  | Some x => bool_decide (x ≠ "")
  | None => false
  end.

(** ** Database access from a handler *)

Definition get_db : Handler Database := λ w, (Ok (db w), w).

Definition put_db (d : Database) : Handler unit := λ w, (Ok tt, with_db w d).

Definition set_meetings (d : Database) (t : list Meetings.row) : Database :=
  {| meetings := t; meetingSections := meetingSections d;
     actionItems := actionItems d |}.

Definition set_meetingSections (d : Database) (t : list MeetingSections.row) : Database :=
  {| meetings := meetings d; meetingSections := t;
     actionItems := actionItems d |}.

Definition set_actionItems (d : Database) (t : list ActionItems.row) : Database :=
  {| meetings := meetings d; meetingSections := meetingSections d;
     actionItems := t |}.

(** [db.select().from(Meetings).where(and(eq(Meetings.id, id),
    eq(Meetings.userId, uid)))]: the owner check shared by the handlers. *)
Definition owned (id uid : string) (m : Meetings.row) : Prop :=
  Meetings.id m = id ∧ Meetings.userId m = uid.

Global Instance owned_dec id uid m : Decision (owned id uid m).
Proof. unfold owned. apply _. Defined.

(** [db.insert(Meetings).values(row).returning()]: a second row with the
    same primary key is refused by the database. The row returned is the row
    written; that is what the driver hands back for a row that is
    [intact_meeting] (defined with the statements below): it cuts a text at
    its first U+0000 and cannot read an integer of magnitude 2^53 or more, and
    on such rows what the call returns is not modelled. *)
Definition insert_meeting (row : Meetings.row) : Handler (list Meetings.row) :=
  let* d := get_db in
  if decide (Meetings.id row ∈ Meetings.id <$> meetings d)
  then throw SqliteConstraint
  else let* _ := put_db (set_meetings d (meetings d ++ [row])) in ret [row].

(** [db.update(Meetings).set(…).where(…).returning()]; the rows returned are
    the rows written, as for [insert_meeting]. *)
Definition update_meetings (set : Meetings.row → Meetings.row)
    (P : Meetings.row → Prop) `{!∀ r, Decision (P r)} : Handler (list Meetings.row) :=
  let* d := get_db in
  let* _ := put_db (set_meetings d (update set P (meetings d)).1) in
  ret (update set P (meetings d)).2.

(** [MeetingSections.meetingId] and [ActionItems.meetingId] are declared
    [references: () => Meetings.columns.id]: a meeting some section or action
    item refers to. *)
Definition referenced (d : Database) (m : Meetings.row) : Prop :=
  Meetings.id m ∈ MeetingSections.meetingId <$> meetingSections d
  ∨ Meetings.id m ∈ ActionItems.meetingId <$> actionItems d.

Global Instance referenced_dec d m : Decision (referenced d m).
Proof. unfold referenced. apply _. Defined.

(** [db.delete(Meetings).where(…).returning()]. There is no cascade: the
    database refuses the whole DELETE, removing nothing, when a row it would
    remove is referred to by a section or an action item. *)
Definition delete_meetings (P : Meetings.row → Prop) `{!∀ r, Decision (P r)}
    : Handler (list Meetings.row) :=
  let* d := get_db in
  if decide (Exists (referenced d) (filter P (meetings d)))
  then throw SqliteConstraint
  else
    let* _ := put_db (set_meetings d (delete P (meetings d)).1) in
    ret (delete P (meetings d)).2.

Definition update_sections (set : MeetingSections.row → MeetingSections.row)
    (P : MeetingSections.row → Prop) `{!∀ r, Decision (P r)}
    : Handler (list MeetingSections.row) :=
  let* d := get_db in
  let* _ := put_db (set_meetingSections d (update set P (meetingSections d)).1) in
  ret (update set P (meetingSections d)).2.

Definition delete_sections (P : MeetingSections.row → Prop) `{!∀ r, Decision (P r)}
    : Handler (list MeetingSections.row) :=
  let* d := get_db in
  let* _ := put_db (set_meetingSections d (delete P (meetingSections d)).1) in
  ret (delete P (meetingSections d)).2.

Definition update_items (set : ActionItems.row → ActionItems.row)
    (P : ActionItems.row → Prop) `{!∀ r, Decision (P r)}
    : Handler (list ActionItems.row) :=
  let* d := get_db in
  let* _ := put_db (set_actionItems d (update set P (actionItems d)).1) in
  ret (update set P (actionItems d)).2.

Definition select_meetings (P : Meetings.row → Prop) `{!∀ r, Decision (P r)}
    : Handler (list Meetings.row) :=
  let* d := get_db in ret (select P (meetings d)).

Definition select_sections (P : MeetingSections.row → Prop) `{!∀ r, Decision (P r)}
    : Handler (list MeetingSections.row) :=
  let* d := get_db in ret (select P (meetingSections d)).

Definition select_items (P : ActionItems.row → Prop) `{!∀ r, Decision (P r)}
    : Handler (list ActionItems.row) :=
  let* d := get_db in ret (select P (actionItems d)).

(** ** Values handed to [.set(…)] and [.values(…)]

    [updateMeeting] builds its values in an object used as a map from column
    names to values ([updateData: Record<string, unknown>]); the two [save]
    handlers write an object literal with fixed keys ([baseValues]). *)

Inductive Value :=
  | VText (s : string)
  | VDate (d : Z)
  | VNumber (n : Z).

Definition text_of (v : option Value) (old : string) : string :=
  match v with Some (VText s) => s | _ => old end.

Definition opt_text_of (v : option Value) (old : option string) : option string :=
  match v with Some (VText s) => Some s | _ => old end.

Definition date_of (v : option Value) (old : Z) : Z :=
  match v with Some (VDate d) => d | _ => old end.

Definition opt_date_of (v : option Value) (old : option Z) : option Z :=
  match v with Some (VDate d) => Some d | _ => old end.

Definition opt_number_of (v : option Value) (old : option Z) : option Z :=
  match v with Some (VNumber n) => Some n | _ => old end.

(** [db.update(Meetings).set(values)] on one row: each column named by a key
    of [values] takes the value given, every other column keeps its own. (A
    value of another kind than the column's does not arise from the typed
    input and is passed over.) *)
Definition set_Meetings (values : gmap string Value) (r : Meetings.row) : Meetings.row :=
  {| Meetings.id := text_of (values !! "id") (Meetings.id r);
     Meetings.userId := text_of (values !! "userId") (Meetings.userId r);
     Meetings.title := text_of (values !! "title") (Meetings.title r);
     Meetings.sourceType := opt_text_of (values !! "sourceType") (Meetings.sourceType r);
     Meetings.sourceUrl := opt_text_of (values !! "sourceUrl") (Meetings.sourceUrl r);
     Meetings.scheduledAt := opt_date_of (values !! "scheduledAt") (Meetings.scheduledAt r);
     Meetings.durationMinutes :=
       opt_number_of (values !! "durationMinutes") (Meetings.durationMinutes r);
     Meetings.createdAt := date_of (values !! "createdAt") (Meetings.createdAt r);
     Meetings.updatedAt := date_of (values !! "updatedAt") (Meetings.updatedAt r) |}.

Module SectionValues.
Record t := {
  meetingId : string;
  type : string;
  orderIndex : Z;
  content : string;
  createdAt : Z;
}.
End SectionValues.

(** [db.insert(MeetingSections).values(baseValues)]: [baseValues] has no [id]
    and the column has no default, so the row stored has none. *)
Definition values_MeetingSections (v : SectionValues.t) : MeetingSections.row :=
  {| MeetingSections.id := None;
     MeetingSections.meetingId := SectionValues.meetingId v;
     MeetingSections.type := SectionValues.type v;
     MeetingSections.orderIndex := SectionValues.orderIndex v;
     MeetingSections.content := SectionValues.content v;
     MeetingSections.createdAt := SectionValues.createdAt v |}.

(** [db.update(MeetingSections).set(baseValues)] on one row. *)
Definition set_MeetingSections (v : SectionValues.t) (r : MeetingSections.row)
    : MeetingSections.row :=
  {| MeetingSections.id := MeetingSections.id r;
     MeetingSections.meetingId := SectionValues.meetingId v;
     MeetingSections.type := SectionValues.type v;
     MeetingSections.orderIndex := SectionValues.orderIndex v;
     MeetingSections.content := SectionValues.content v;
     MeetingSections.createdAt := SectionValues.createdAt v |}.

Module ItemValues.
Record t := {
  meetingId : string;
  assignee : option string;      (* [undefined] when the caller gave none *)
  description : string;
  dueDate : option Z;
  status : option string;
  createdAt : Z;
  updatedAt : Z;
}.
End ItemValues.

(** [db.insert(ActionItems).values(baseValues)]: a key whose value is
    [undefined] is stored as NULL; there is no [id]. *)
Definition values_ActionItems (v : ItemValues.t) : ActionItems.row :=
  {| ActionItems.id := None;
     ActionItems.meetingId := ItemValues.meetingId v;
     ActionItems.assignee := ItemValues.assignee v;
     ActionItems.description := ItemValues.description v;
     ActionItems.dueDate := ItemValues.dueDate v;
     ActionItems.status := ItemValues.status v;
     ActionItems.createdAt := ItemValues.createdAt v;
     ActionItems.updatedAt := ItemValues.updatedAt v |}.

(** A key of the object given to [.set(…)] whose value is [undefined] is
    left out of the UPDATE by the query builder (drizzle: "values of
    undefined are ignored in the object; to set a column to null, pass
    null"), so the column keeps what it holds. *)
Definition set_defined {A} (value : option A) (old : option A) : option A :=
  match value with
  | Some x => Some x
  | None => old
  end.

(** [db.update(ActionItems).set(baseValues)] on one row. *)
Definition set_ActionItems (v : ItemValues.t) (r : ActionItems.row) : ActionItems.row :=
  {| ActionItems.id := ActionItems.id r;
     ActionItems.meetingId := ItemValues.meetingId v;
     ActionItems.assignee := set_defined (ItemValues.assignee v) (ActionItems.assignee r);
     ActionItems.description := ItemValues.description v;
     ActionItems.dueDate := set_defined (ItemValues.dueDate v) (ActionItems.dueDate r);
     ActionItems.status := set_defined (ItemValues.status v) (ActionItems.status r);
     ActionItems.createdAt := ItemValues.createdAt v;
     ActionItems.updatedAt := ItemValues.updatedAt v |}.

(** The two inserts of child rows. The meeting a new row refers to is
    stored: a handler inserts only after it has selected that meeting, so the
    declared reference holds and the database does not refuse the row. *)
Definition insert_section (v : SectionValues.t) : Handler (list MeetingSections.row) :=
  let* d := get_db in
  let* _ := put_db (set_meetingSections d
                      (meetingSections d ++ [values_MeetingSections v])) in
  ret [values_MeetingSections v].

Definition insert_item (v : ItemValues.t) : Handler (list ActionItems.row) :=
  let* d := get_db in
  let* _ := put_db (set_actionItems d (actionItems d ++ [values_ActionItems v])) in
  ret [values_ActionItems v].

Definition notFound {A} (message : string) : Handler A :=
  throw (ActionError NOT_FOUND message).

(** ** The actions *)

Module CreateMeeting.
Record input := {
  id : option string;
  title : string;
  sourceType : option string;
  sourceUrl : option string;
  scheduledAt : option Z;
  durationMinutes : option Z;
}.
End CreateMeeting.

Definition createMeeting (input : CreateMeeting.input) (context : ActionAPIContext)
    : Handler (option Meetings.row) :=
  let* user := requireUser context in
  let* id := match CreateMeeting.id input with
             | Some i => ret i
             | None => randomUUID
             end in
  let* createdAt := new_Date in
  let* updatedAt := new_Date in
  let* rows := insert_meeting
    {| Meetings.id := id;
       Meetings.userId := user_id user;
       Meetings.title := CreateMeeting.title input;
       Meetings.sourceType := CreateMeeting.sourceType input;
       Meetings.sourceUrl := CreateMeeting.sourceUrl input;
       Meetings.scheduledAt := CreateMeeting.scheduledAt input;
       Meetings.durationMinutes := CreateMeeting.durationMinutes input;
       Meetings.createdAt := createdAt;
       Meetings.updatedAt := updatedAt |} in
  ret (first rows).

Module UpdateMeeting.
Record input := {
  id : string;
  title : option string;
  sourceType : option string;
  sourceUrl : option string;
  scheduledAt : option Z;
  durationMinutes : option Z;
}.
End UpdateMeeting.

(** [Object.entries(rest)] for [const { id, ...rest } = input]; an optional
    field the caller left out is [undefined], here [None]. *)
Definition entries_rest (input : UpdateMeeting.input) : list (string * option Value) :=
  [ ("title", VText <$> UpdateMeeting.title input);
    ("sourceType", VText <$> UpdateMeeting.sourceType input);
    ("sourceUrl", VText <$> UpdateMeeting.sourceUrl input);
    ("scheduledAt", VDate <$> UpdateMeeting.scheduledAt input);
    ("durationMinutes", VNumber <$> UpdateMeeting.durationMinutes input) ].

(** The loop that copies the defined entries into [updateData]. *)
Definition updateData (entries : list (string * option Value)) : gmap string Value :=
  foldl (λ data entry,
           match entry.2 with
           | Some value => <[entry.1 := value]> data
           | None => data
           end) ∅ entries.

Definition updateMeeting (input : UpdateMeeting.input) (context : ActionAPIContext)
    : Handler (option Meetings.row) :=
  let* user := requireUser context in
  let id := UpdateMeeting.id input in
  let* found := select_meetings (owned id (user_id user)) in
  match first (limit 1 found) with
  | None => notFound "Meeting not found."
  | Some existing =>
      let data := updateData (entries_rest input) in
      if bool_decide (size data = 0%nat) then ret (Some existing)
      else
        let* now := new_Date in
        let* rows := update_meetings (set_Meetings (<["updatedAt" := VDate now]> data))
                       (owned id (user_id user)) in
        ret (first rows)
  end.

Definition listMeetings (context : ActionAPIContext) : Handler (list Meetings.row) :=
  let* user := requireUser context in
  select_meetings (λ m, Meetings.userId m = user_id user).

Module DeleteMeeting.
Record input := { id : string }.
End DeleteMeeting.

Definition deleteMeeting (input : DeleteMeeting.input) (context : ActionAPIContext)
    : Handler Meetings.row :=
  let* user := requireUser context in
  let* rows := delete_meetings (owned (DeleteMeeting.id input) (user_id user)) in
  match first rows with
  | None => notFound "Meeting not found."
  | Some deleted => ret deleted
  end.

Module SaveSection.
Record input := {
  id : option string;
  meetingId : string;
  type : string;
  orderIndex : Z;
  content : string;
}.
End SaveSection.

Definition saveSection (input : SaveSection.input) (context : ActionAPIContext)
    : Handler (option MeetingSections.row) :=
  let* user := requireUser context in
  let* found := select_meetings (owned (SaveSection.meetingId input) (user_id user)) in
  match first (limit 1 found) with
  | None => notFound "Meeting not found."
  | Some meeting =>
      let* createdAt := new_Date in
      let baseValues :=
        {| SectionValues.meetingId := SaveSection.meetingId input;
           SectionValues.type := SaveSection.type input;
           SectionValues.orderIndex := SaveSection.orderIndex input;
           SectionValues.content := SaveSection.content input;
           SectionValues.createdAt := createdAt |} in
      let inserted := let* rows := insert_section baseValues in ret (first rows) in
      match SaveSection.id input with
      | Some id =>
          if truthy (Some id) then
            let* rows := select_sections (λ s, eq_null (MeetingSections.id s) id) in
            match first (limit 1 rows) with
            | None => notFound "Section not found."
            | Some existing =>
                if decide (MeetingSections.meetingId existing ≠ SaveSection.meetingId input)
                then notFound "Section not found."
                else
                  let* rows := update_sections (set_MeetingSections baseValues)
                                 (λ s, eq_null (MeetingSections.id s) id) in
                  ret (first rows)
            end
          else inserted
      | None => inserted
      end
  end.

Module DeleteSection.
Record input := { id : string; meetingId : string }.
End DeleteSection.

Definition deleteSection (input : DeleteSection.input) (context : ActionAPIContext)
    : Handler MeetingSections.row :=
  let* user := requireUser context in
  let* found := select_meetings (owned (DeleteSection.meetingId input) (user_id user)) in
  match first (limit 1 found) with
  | None => notFound "Meeting not found."
  | Some meeting =>
      let* rows := delete_sections
        (λ s, eq_null (MeetingSections.id s) (DeleteSection.id input)
              ∧ MeetingSections.meetingId s = DeleteSection.meetingId input) in
      match first rows with
      | None => notFound "Section not found."
      | Some deleted => ret deleted
      end
  end.

Module SaveActionItem.
Record input := {
  id : option string;
  meetingId : string;
  assignee : option string;
  description : string;
  dueDate : option Z;
  status : option string;
}.
End SaveActionItem.

Definition saveActionItem (input : SaveActionItem.input) (context : ActionAPIContext)
    : Handler (option ActionItems.row) :=
  let* user := requireUser context in
  let* found := select_meetings (owned (SaveActionItem.meetingId input) (user_id user)) in
  match first (limit 1 found) with
  | None => notFound "Meeting not found."
  | Some meeting =>
      let* createdAt := new_Date in
      let* updatedAt := new_Date in
      let baseValues :=
        {| ItemValues.meetingId := SaveActionItem.meetingId input;
           ItemValues.assignee := SaveActionItem.assignee input;
           ItemValues.description := SaveActionItem.description input;
           ItemValues.dueDate := SaveActionItem.dueDate input;
           ItemValues.status := SaveActionItem.status input;
           ItemValues.createdAt := createdAt;
           ItemValues.updatedAt := updatedAt |} in
      let inserted := let* rows := insert_item baseValues in ret (first rows) in
      match SaveActionItem.id input with
      | Some id =>
          if truthy (Some id) then
            let* rows := select_items (λ a, eq_null (ActionItems.id a) id) in
            match first (limit 1 rows) with
            | None => notFound "Action item not found."
            | Some existing =>
                if decide (ActionItems.meetingId existing ≠ SaveActionItem.meetingId input)
                then notFound "Action item not found."
                else
                  let* rows := update_items (set_ActionItems baseValues)
                                 (λ a, eq_null (ActionItems.id a) id) in
                  ret (first rows)
            end
          else inserted
      | None => inserted
      end
  end.

Module ListActionItems.
Record input := { meetingId : option string }.
End ListActionItems.

(** [allowedMeetingIds.has(x)]; [undefined] is in no set of strings. *)
Definition has (s : gset string) (x : option string) : bool :=
  match x with
  | Some v => bool_decide (v ∈ s)
  | None => false
  end.

(** The callback of [items.filter(…)]. *)
Definition matches (allowedMeetingIds : gset string) (requested : option string)
    (item : ActionItems.row) : bool :=
  let matchesMeeting := has allowedMeetingIds (Some (ActionItems.meetingId item)) in
  let matchesRequestedMeeting :=
    if truthy requested
    then bool_decide (Some (ActionItems.meetingId item) = requested)
    else true in
  matchesMeeting && matchesRequestedMeeting.

Definition listActionItems (input : option ListActionItems.input)
    (context : ActionAPIContext) : Handler (list ActionItems.row) :=
  let* user := requireUser context in
  let* meetings := select_meetings (λ m, Meetings.userId m = user_id user) in
  let allowedMeetingIds : gset string := list_to_set (Meetings.id <$> meetings) in
  let requested := input ≫= ListActionItems.meetingId in   (* input?.meetingId *)
  if truthy requested && negb (has allowedMeetingIds requested)
  then notFound "Meeting not found."
  else
    let* items := select_items (λ _, True) in
    ret (filter (λ item, matches allowedMeetingIds requested item) items).

(** The two errors the handlers throw. *)

Definition Unauthorized : Error :=
  ActionError UNAUTHORIZED "You must be signed in to perform this action.".

Definition NotFound (message : string) : Error := ActionError NOT_FOUND message.

(** ** A small scenario

    User A owns meeting [m1], which has one section and one action item;
    user B owns nothing. The clock reads 100, 101, … *)

Module Scenario.
Definition alice : User := {| user_id := "A" |}.
Definition bob : User := {| user_id := "B" |}.

Definition m1 : Meetings.row :=
  {| Meetings.id := "m1"; Meetings.userId := "A"; Meetings.title := "Standup";
     Meetings.sourceType := None; Meetings.sourceUrl := None;
     Meetings.scheduledAt := None; Meetings.durationMinutes := None;
     Meetings.createdAt := 10; Meetings.updatedAt := 10 |}.

Definition s1 : MeetingSections.row :=
  {| MeetingSections.id := Some "s1"; MeetingSections.meetingId := "m1";
     MeetingSections.type := "notes"; MeetingSections.orderIndex := 1;
     MeetingSections.content := "hi"; MeetingSections.createdAt := 20 |}.

Definition a1 : ActionItems.row :=
  {| ActionItems.id := Some "a1"; ActionItems.meetingId := "m1";
     ActionItems.assignee := Some "bob"; ActionItems.description := "write notes";
     ActionItems.dueDate := Some 5; ActionItems.status := Some "open";
     ActionItems.createdAt := 30; ActionItems.updatedAt := 30 |}.

Definition w0 : World :=
  {| db := {| meetings := [m1]; meetingSections := [s1]; actionItems := [a1] |};
     dates := λ n, 100 + Z.of_nat n; date_calls := 0;
     uuids := λ _, "0b0e7f3c"; uuid_calls := 0 |}.

(** A second world: A owns two meetings, and the section of [m2] is stored
    under the empty string as its id. *)
Definition m2 : Meetings.row :=
  {| Meetings.id := "m2"; Meetings.userId := "A"; Meetings.title := "Planning";
     Meetings.sourceType := None; Meetings.sourceUrl := None;
     Meetings.scheduledAt := None; Meetings.durationMinutes := None;
     Meetings.createdAt := 11; Meetings.updatedAt := 11 |}.

Definition s_blank : MeetingSections.row :=
  {| MeetingSections.id := Some ""; MeetingSections.meetingId := "m2";
     MeetingSections.type := "summary"; MeetingSections.orderIndex := 1;
     MeetingSections.content := "plan"; MeetingSections.createdAt := 25 |}.

Definition a2 : ActionItems.row :=
  {| ActionItems.id := Some "a2"; ActionItems.meetingId := "m2";
     ActionItems.assignee := None; ActionItems.description := "book a room";
     ActionItems.dueDate := None; ActionItems.status := None;
     ActionItems.createdAt := 35; ActionItems.updatedAt := 35 |}.

Definition w1 : World :=
  {| db := {| meetings := [m1; m2]; meetingSections := [s_blank];
              actionItems := [a1; a2] |};
     dates := λ n, 200 + Z.of_nat n; date_calls := 0;
     uuids := λ _, "7d1c4a90"; uuid_calls := 0 |}.

Definition notes (id : option string) (content : string) : SaveSection.input :=
  {| SaveSection.id := id; SaveSection.meetingId := "m1";
     SaveSection.type := "notes"; SaveSection.orderIndex := 1;
     SaveSection.content := content |}.

(** A third world: A owns [m1], [m2] and [m4], B owns [m3]; [m1], [m2] and
    [m3] have a section and an action item each, [m4] has neither. *)
Definition m3 : Meetings.row :=
  {| Meetings.id := "m3"; Meetings.userId := "B"; Meetings.title := "Budget";
     Meetings.sourceType := Some "upload"; Meetings.sourceUrl := None;
     Meetings.scheduledAt := None; Meetings.durationMinutes := Some 45;
     Meetings.createdAt := 12; Meetings.updatedAt := 12 |}.

Definition m4 : Meetings.row :=
  {| Meetings.id := "m4"; Meetings.userId := "A"; Meetings.title := "Kickoff";
     Meetings.sourceType := None; Meetings.sourceUrl := None;
     Meetings.scheduledAt := None; Meetings.durationMinutes := None;
     Meetings.createdAt := 13; Meetings.updatedAt := 13 |}.

Definition s2 : MeetingSections.row :=
  {| MeetingSections.id := Some "s2"; MeetingSections.meetingId := "m2";
     MeetingSections.type := "summary"; MeetingSections.orderIndex := 1;
     MeetingSections.content := "plan"; MeetingSections.createdAt := 21 |}.

Definition s3 : MeetingSections.row :=
  {| MeetingSections.id := Some "s3"; MeetingSections.meetingId := "m3";
     MeetingSections.type := "transcript"; MeetingSections.orderIndex := 1;
     MeetingSections.content := "numbers"; MeetingSections.createdAt := 22 |}.

Definition a3 : ActionItems.row :=
  {| ActionItems.id := Some "a3"; ActionItems.meetingId := "m3";
     ActionItems.assignee := Some "carol"; ActionItems.description := "close the books";
     ActionItems.dueDate := None; ActionItems.status := Some "open";
     ActionItems.createdAt := 36; ActionItems.updatedAt := 36 |}.

Definition w2 : World :=
  {| db := {| meetings := [m1; m2; m3; m4]; meetingSections := [s1; s2; s3];
              actionItems := [a1; a2; a3] |};
     dates := λ n, 300 + Z.of_nat n; date_calls := 0;
     uuids := λ _, "c41e9d52"; uuid_calls := 0 |}.
End Scenario.

(** ** Vocabulary of the statements *)

(** The primary key of [MeetingSections] and of [ActionItems]: the ids that
    are not NULL are pairwise distinct. *)
Definition ids_unique_sections (ss : list MeetingSections.row) : Prop :=
  NoDup (omap MeetingSections.id ss).

Definition ids_unique_items (items : list ActionItems.row) : Prop :=
  NoDup (omap ActionItems.id items).



(** [u] owns the meeting with id [mid]. *)
Definition owns (u : User) (mid : string) (d : Database) : Prop :=
  ∃ m, m ∈ meetings d ∧ Meetings.id m = mid ∧ Meetings.userId m = user_id u.



(** What the driver hands back of a stored meeting. A text is cut at its
    first U+0000, and an integer is read only when its magnitude is below
    2^53. A meeting is intact when it is read back as it is stored. *)
Fixpoint cut_at_NUL (s : string) : string :=
  match s with
  | EmptyString => EmptyString
  | String c s' =>
      if Ascii.eqb c Ascii.zero then EmptyString else String c (cut_at_NUL s')
  end.

Definition intact_text (s : string) : Prop := cut_at_NUL s = s.

Definition safe_integer (n : Z) : Prop := - 2 ^ 53 < n < 2 ^ 53.

Definition intact_meeting (m : Meetings.row) : Prop :=
  intact_text (Meetings.id m) ∧
  intact_text (Meetings.userId m) ∧
  intact_text (Meetings.title m) ∧
  (∀ s, Meetings.sourceType m = Some s → intact_text s) ∧
  (∀ s, Meetings.sourceUrl m = Some s → intact_text s) ∧
  (∀ n, Meetings.durationMinutes m = Some n → safe_integer n).


(** ** Statements of the specification that the code does not meet

    Each is written here as the specification words it; a counterexample
    below refutes it, and the statement that does hold follows. *)







(** The object [baseValues] of a [saveSection] call whose [new Date()] read
    [createdAt], and of a [saveActionItem] call whose two [new Date()] read
    [createdAt] and [updatedAt]. *)
Definition section_baseValues (input : SaveSection.input) (createdAt : Z)
    : SectionValues.t :=
  {| SectionValues.meetingId := SaveSection.meetingId input;
     SectionValues.type := SaveSection.type input;
     SectionValues.orderIndex := SaveSection.orderIndex input;
     SectionValues.content := SaveSection.content input;
     SectionValues.createdAt := createdAt |}.

Definition item_baseValues (input : SaveActionItem.input) (createdAt updatedAt : Z)
    : ItemValues.t :=
  {| ItemValues.meetingId := SaveActionItem.meetingId input;
     ItemValues.assignee := SaveActionItem.assignee input;
     ItemValues.description := SaveActionItem.description input;
     ItemValues.dueDate := SaveActionItem.dueDate input;
     ItemValues.status := SaveActionItem.status input;
     ItemValues.createdAt := createdAt;
     ItemValues.updatedAt := updatedAt |}.


(** The id [createMeeting] stores a meeting under: [input.id ??
    crypto.randomUUID()]. *)
Definition chosen_id (input : CreateMeeting.input) (w : World) : string :=
  match CreateMeeting.id input with
  | Some id => id
  | None => uuids w (uuid_calls w)
  end.




(** * Properties *)

(** Unfolds the monad and the database access of a handler. *)
Ltac run_handler :=
  unfold bind, select_meetings, select_sections, select_items, delete_meetings,
    delete_sections, update_meetings, update_sections, update_items,
    insert_section, insert_item, get_db, put_db, new_Date, notFound, throw, ret;
  simpl; unfold bind; simpl.

(** ** The owner check *)

Section Filters.
Context {R : Type} (P : R → Prop) `{!∀ r, Decision (P r)}.

Lemma filter_none (t : list R) : (∀ r, r ∈ t → ¬ P r) → filter P t = [].
Proof.
  induction t as [|r t IH]; intros HP; [done|].
  rewrite filter_cons_False; [|apply HP; left].
  apply IH. intros r' Hr'. apply HP. by right.
Qed.

Lemma filter_all (t : list R) : (∀ r, r ∈ t → P r) → filter P t = t.
Proof.
  induction t as [|r t IH]; intros HP; [done|].
  rewrite filter_cons_True; [|apply HP; left].
  f_equal. apply IH. intros r' Hr'. apply HP. by right.
Qed.
End Filters.

(** A [delete] whose [where] clause matches no row keeps the whole table. *)
Lemma delete_none {R} (P : R → Prop) `{!∀ r, Decision (P r)} (t : list R) :
  filter P t = [] → filter (λ r, ¬ P r) t = t.
Proof.
  intros HP. apply filter_all. intros r Hr HPr.
  by apply (filter_nil_not_elem_of P t r).
Qed.

(** Under the primary key, a row is determined by its id. *)
Lemma pk_unique_row (ms : list Meetings.row) (r m : Meetings.row) :
  pk_unique ms → r ∈ ms → m ∈ ms → Meetings.id r = Meetings.id m → r = m.
Proof.
  unfold pk_unique. induction ms as [|x ms IH]; intros Hpk Hr Hm Hid.
  { by apply elem_of_nil in Hm. }
  rewrite fmap_cons in Hpk. apply NoDup_cons in Hpk as [Hx Hnd].
  apply elem_of_cons in Hm as [->|Hm]; apply elem_of_cons in Hr as [->|Hr];
    try done.
  - exfalso. apply Hx. rewrite <- Hid. by apply list_elem_of_fmap_2.
  - exfalso. apply Hx. rewrite Hid. by apply list_elem_of_fmap_2.
  - by apply IH.
Qed.

(** No row of the table is owned by [uid] under the id of a meeting that
    belongs to somebody else. *)
Lemma select_owned_other (ms : list Meetings.row) (m : Meetings.row) (uid : string) :
  pk_unique ms → m ∈ ms → Meetings.userId m ≠ uid →
  select (owned (Meetings.id m) uid) ms = [].
Proof.
  intros Hpk Hm Hne. unfold select. apply filter_none.
  intros r Hr [Hid Huid].
  by rewrite (pk_unique_row ms r m Hpk Hr Hm Hid) in Huid.
Qed.

(** The owner's lookup finds the owner's row, and only it. *)
Lemma select_owned_own (ms : list Meetings.row) (m : Meetings.row) :
  pk_unique ms → m ∈ ms →
  select (owned (Meetings.id m) (Meetings.userId m)) ms = [m].
Proof.
  unfold pk_unique, select. induction ms as [|x ms IH]; intros Hpk Hm.
  { by apply elem_of_nil in Hm. }
  rewrite fmap_cons in Hpk. apply NoDup_cons in Hpk as [Hx Hnd].
  apply elem_of_cons in Hm as [->|Hm].
  - rewrite filter_cons_True; [|done]. f_equal. apply filter_none.
    intros r Hr [Hid _]. apply Hx. rewrite <- Hid. by apply list_elem_of_fmap_2.
  - rewrite filter_cons_False; [by apply IH|].
    intros [Hid _]. apply Hx. rewrite Hid. by apply list_elem_of_fmap_2.
Qed.

Lemma requireUser_unresolved {A} (context : ActionAPIContext)
    (k : User → Handler A) (w : World) :
  unresolved context →
  bind (requireUser context) k w =
    (Thrown Unauthorized, w).
Proof. unfold unresolved, bind, requireUser. by intros ->. Qed.

Lemma with_db_same (w : World) : with_db w (db w) = w.
Proof. by destruct w. Qed.

Lemma set_meetings_same (d : Database) : set_meetings d (meetings d) = d.
Proof. by destruct d. Qed.

(** ** Unauthorized callers *)

(** C9: when the caller's identity cannot be resolved, each of the eight
    actions throws UNAUTHORIZED and the world — every table, the clock and
    the identifier source — is exactly as before the call: nothing was read
    or written. *)
Theorem unauthorized_before_any_access (context : ActionAPIContext) (w : World) :
  unresolved context →
  (∀ input, createMeeting input context w = (Thrown Unauthorized, w)) ∧
  (∀ input, updateMeeting input context w = (Thrown Unauthorized, w)) ∧
  listMeetings context w = (Thrown Unauthorized, w) ∧
  (∀ input, deleteMeeting input context w = (Thrown Unauthorized, w)) ∧
  (∀ input, saveSection input context w = (Thrown Unauthorized, w)) ∧
  (∀ input, deleteSection input context w = (Thrown Unauthorized, w)) ∧
  (∀ input, saveActionItem input context w = (Thrown Unauthorized, w)) ∧
  (∀ input, listActionItems input context w = (Thrown Unauthorized, w)).
Proof.
  intros Hctx. repeat split; intros;
    by apply requireUser_unresolved.
Qed.

Lemma unauthorized_before_any_access_witness :
  listMeetings {| locals := None |} Scenario.w0 = (Thrown Unauthorized, Scenario.w0).
Proof.
  exact (proj1 (proj2 (proj2
    (unauthorized_before_any_access {| locals := None |} Scenario.w0 eq_refl)))).
Defined.

(** ** Meetings of other users *)

(** C1: a meeting id whose stored owner is not the caller: [updateMeeting],
    [deleteMeeting], [saveSection], [deleteSection] and [saveActionItem] called
    with that meeting id each throw NOT_FOUND; the error carries no row, and
    the world is left exactly as it was. *)
Theorem other_users_meeting_NotFound (w : World) (u : User) (m : Meetings.row) :
  pk_unique (meetings (db w)) →
  m ∈ meetings (db w) →
  Meetings.userId m ≠ user_id u →
  (∀ input, UpdateMeeting.id input = Meetings.id m →
     updateMeeting input (signed_in u) w = (Thrown (NotFound "Meeting not found."), w)) ∧
  (∀ input, DeleteMeeting.id input = Meetings.id m →
     deleteMeeting input (signed_in u) w = (Thrown (NotFound "Meeting not found."), w)) ∧
  (∀ input, SaveSection.meetingId input = Meetings.id m →
     saveSection input (signed_in u) w = (Thrown (NotFound "Meeting not found."), w)) ∧
  (∀ input, DeleteSection.meetingId input = Meetings.id m →
     deleteSection input (signed_in u) w = (Thrown (NotFound "Meeting not found."), w)) ∧
  (∀ input, SaveActionItem.meetingId input = Meetings.id m →
     saveActionItem input (signed_in u) w = (Thrown (NotFound "Meeting not found."), w)).
Proof.
  intros Hpk Hm Hne.
  pose proof (select_owned_other _ m (user_id u) Hpk Hm Hne) as Hsel.
  repeat split; intros input Hid.
  - unfold updateMeeting. run_handler. by rewrite Hid, Hsel.
  - unfold deleteMeeting. run_handler. rewrite Hid.
    unfold select in Hsel. rewrite Hsel.
    rewrite decide_False by (by intros ?%Exists_nil). simpl.
    rewrite (delete_none _ _ Hsel). simpl.
    by rewrite set_meetings_same, with_db_same.
  - unfold saveSection. run_handler. by rewrite Hid, Hsel.
  - unfold deleteSection. run_handler. by rewrite Hid, Hsel.
  - unfold saveActionItem. run_handler. by rewrite Hid, Hsel.
Qed.

Lemma other_users_meeting_NotFound_witness :
  deleteMeeting {| DeleteMeeting.id := "m1" |} (signed_in Scenario.bob) Scenario.w0
  = (Thrown (NotFound "Meeting not found."), Scenario.w0).
Proof.
  refine (proj1 (proj2 (other_users_meeting_NotFound
            Scenario.w0 Scenario.bob Scenario.m1 _ _ _))
            {| DeleteMeeting.id := "m1" |} eq_refl).
  - apply NoDup_singleton.
  - apply list_elem_of_singleton. reflexivity.
  - discriminate.
Defined.

(** ** [updateMeeting] *)

(** What the loop leaves in [updateData]: the five optional fields, each
    under its own name when the caller gave it, and no other key. *)
Lemma updateData_lookup (input : UpdateMeeting.input) :
  let data := updateData (entries_rest input) in
  data !! "title" = VText <$> UpdateMeeting.title input ∧
  data !! "sourceType" = VText <$> UpdateMeeting.sourceType input ∧
  data !! "sourceUrl" = VText <$> UpdateMeeting.sourceUrl input ∧
  data !! "scheduledAt" = VDate <$> UpdateMeeting.scheduledAt input ∧
  data !! "durationMinutes" = VNumber <$> UpdateMeeting.durationMinutes input ∧
  data !! "id" = None ∧ data !! "userId" = None ∧
  data !! "createdAt" = None ∧ data !! "updatedAt" = None.
Proof.
  destruct input as [i [t|] [st|] [su|] [sa|] [dm|]]; vm_compute; repeat split.
Qed.


Lemma updateMeeting_owner_lookup (w : World) (u : User) (m : Meetings.row) :
  pk_unique (meetings (db w)) → m ∈ meetings (db w) →
  Meetings.userId m = user_id u →
  filter (owned (Meetings.id m) (user_id u)) (meetings (db w)) = [m].
Proof. intros Hpk Hm <-. by apply select_owned_own. Qed.





(** ** Lookups by id *)




Section FirstMatch.
Context {R : Type} (P : R → Prop) `{!∀ r, Decision (P r)}.

(** [select … where P … limit 1] returns a row as soon as one matches, and
    the row returned matches and is in the table. *)
Lemma first_match_exists (t : list R) (r : R) :
  r ∈ t → P r → ∃ x, first (limit 1 (filter P t)) = Some x ∧ x ∈ t ∧ P x.
Proof.
  intros Hr HP.
  assert (r ∈ filter P t) as Hin by by apply list_elem_of_filter.
  destruct (filter P t) as [|x l] eqn:Hf; [by apply elem_of_nil in Hin|].
  exists x. split; [done|].
  assert (x ∈ filter P t) as Hx by (rewrite Hf; left).
  apply list_elem_of_filter in Hx as [? ?]. done.
Qed.

Lemma first_limit (l : list R) : first (limit 1 l) = first l.
Proof. by destruct l. Qed.
End FirstMatch.



Lemma owned_lookup (u : User) (mid : string) (d : Database) :
  owns u mid d →
  ∃ m, first (limit 1 (filter (owned mid (user_id u)) (meetings d))) = Some m.
Proof.
  intros (m & Hm & Hid & Hu).
  destruct (first_match_exists (owned mid (user_id u)) (meetings d) m Hm)
    as (x & Hx & _); [done|]. by exists x.
Qed.

Lemma truthy_Some (id : string) : id ≠ "" → truthy (Some id) = true.
Proof. intros Hne. simpl. by apply bool_decide_eq_true_2. Qed.

(** ** [saveSection] *)







(** C3: [saveSection] without an id, on a meeting the caller owns. The row
    inserted is [baseValues], which has no [id]: the section returned and the
    row appended to the table carry no identifier at all, where
    [createMeeting] draws one with [crypto.randomUUID()]. *)
Theorem saveSection_insert_generates_no_id
    (w : World) (u : User) (input : SaveSection.input) :
  owns u (SaveSection.meetingId input) (db w) →
  SaveSection.id input = None →
  ∃ s' : MeetingSections.row,
    saveSection input (signed_in u) w =
      (Ok (Some s'),
       {| db := set_meetingSections (db w) (meetingSections (db w) ++ [s']);
          dates := dates w; date_calls := S (date_calls w);
          uuids := uuids w; uuid_calls := uuid_calls w |}) ∧
    MeetingSections.id s' = None.
Proof.
  intros Hown Hin.
  destruct (owned_lookup u _ _ Hown) as [m Hm].
  unfold saveSection. run_handler. unfold select. rewrite Hm. simpl.
  rewrite Hin. simpl. eexists. split; reflexivity.
Qed.

Lemma saveSection_insert_generates_no_id_witness :
  ∃ s' : MeetingSections.row,
    (saveSection (Scenario.notes None "hi")
       (signed_in Scenario.alice) Scenario.w0).1 = Ok (Some s') ∧
    MeetingSections.id s' = None.
Proof.
  destruct (saveSection_insert_generates_no_id Scenario.w0 Scenario.alice
              (Scenario.notes None "hi")) as (s' & Hret & Hid).
  - exists Scenario.m1. split; [apply list_elem_of_singleton; reflexivity | done].
  - reflexivity.
  - exists s'. split; [by rewrite Hret | exact Hid].
Defined.

(** ** [saveActionItem] *)




(** ** [listActionItems] *)










(** ** The primary key of [Meetings] is kept

    [createMeeting] is the only handler that adds a meeting, and the database
    refuses an id already in use. *)
Lemma createMeeting_keeps_pk (input : CreateMeeting.input)
    (context : ActionAPIContext) (w : World) :
  pk_unique (meetings (db w)) →
  pk_unique (meetings (db (createMeeting input context w).2)).
Proof.
  intros Hpk. unfold createMeeting, bind at 1.
  destruct (requireUser context w) as [[user|e] w'] eqn:Hreq; [|].
  - assert (w' = w) as ->.
    { unfold requireUser in Hreq.
      destruct (locals context ≫= _); unfold ret, throw in Hreq; congruence. }
    unfold insert_meeting.
    destruct (CreateMeeting.id input) as [i|]; run_handler; unfold randomUUID;
      simpl; case_decide as Hin; simpl; try done;
      unfold pk_unique; rewrite fmap_app; apply NoDup_app;
      (split; [done|]); (split; [|apply NoDup_singleton]);
      intros x Hx Hx'; apply list_elem_of_singleton in Hx'; simpl in Hx';
      by subst x.
  - assert (w' = w) as ->; [|done].
    unfold requireUser in Hreq.
    destruct (locals context ≫= _); unfold ret, throw in Hreq; congruence.
Qed.

(** The scenario of the specification, evaluated: user A saves a section of
    [m1] without an id; the section returned and the one stored have none. *)
Example saveSection_insert_scenario :
  (saveSection (Scenario.notes None "hi") (signed_in Scenario.alice) Scenario.w0).1
    = Ok (Some {| MeetingSections.id := None; MeetingSections.meetingId := "m1";
                  MeetingSections.type := "notes"; MeetingSections.orderIndex := 1;
                  MeetingSections.content := "hi";
                  MeetingSections.createdAt := 100 |}) ∧
  MeetingSections.id <$>
    meetingSections
      (db (saveSection (Scenario.notes None "hi")
             (signed_in Scenario.alice) Scenario.w0).2)
    = [Some "s1"; None].
Proof. split; reflexivity. Qed.

(** * Further properties of the handlers *)

(** Unfolds a handler down to the query builder and splits on every test it
    makes. *)
Ltac handler_cases :=
  unfold requireUser; run_handler;
  unfold select, update, delete, insert_meeting, randomUUID; run_handler;
  repeat (case_match; simplify_eq/=; try done).

(** ** Which tables a handler touches *)

(** X1: each handler writes to one table at most. The three meeting handlers
    leave the sections and the action items alone — [deleteMeeting] included:
    it removes no section and no action item. The two section handlers
    leave meetings and action items alone, [saveActionItem] leaves meetings
    and sections alone, and the two list handlers leave the whole world as
    it is, the clock included. This holds for every input, caller and world,
    whether the call returns or throws. *)
Theorem handlers_touch_one_table (context : ActionAPIContext) (w : World) :
  (∀ input,
     meetingSections (db (createMeeting input context w).2) = meetingSections (db w) ∧
     actionItems (db (createMeeting input context w).2) = actionItems (db w)) ∧
  (∀ input,
     meetingSections (db (updateMeeting input context w).2) = meetingSections (db w) ∧
     actionItems (db (updateMeeting input context w).2) = actionItems (db w)) ∧
  (∀ input,
     meetingSections (db (deleteMeeting input context w).2) = meetingSections (db w) ∧
     actionItems (db (deleteMeeting input context w).2) = actionItems (db w)) ∧
  (∀ input,
     meetings (db (saveSection input context w).2) = meetings (db w) ∧
     actionItems (db (saveSection input context w).2) = actionItems (db w)) ∧
  (∀ input,
     meetings (db (deleteSection input context w).2) = meetings (db w) ∧
     actionItems (db (deleteSection input context w).2) = actionItems (db w)) ∧
  (∀ input,
     meetings (db (saveActionItem input context w).2) = meetings (db w) ∧
     meetingSections (db (saveActionItem input context w).2) = meetingSections (db w)) ∧
  (listMeetings context w).2 = w ∧
  (∀ input, (listActionItems input context w).2 = w).
Proof.
  repeat split; intros.
  - unfold createMeeting. handler_cases.
  - unfold createMeeting. handler_cases.
  - unfold updateMeeting. handler_cases.
  - unfold updateMeeting. handler_cases.
  - unfold deleteMeeting. handler_cases.
  - unfold deleteMeeting. handler_cases.
  - unfold saveSection. handler_cases.
  - unfold saveSection. handler_cases.
  - unfold deleteSection. handler_cases.
  - unfold deleteSection. handler_cases.
  - unfold saveActionItem. handler_cases.
  - unfold saveActionItem. handler_cases.
  - unfold listMeetings. handler_cases.
  - unfold listActionItems. handler_cases.
Qed.

(** ** Failed calls *)

Lemma first_None {R} (l : list R) : first l = None → l = [].
Proof. by destruct l. Qed.

Lemma with_db_set_meetings (w : World) (ms : list Meetings.row) :
  ms = meetings (db w) → db (with_db w (set_meetings (db w) ms)) = db w.
Proof. intros ->. by destruct w as [[]]. Qed.

Lemma with_db_set_sections (w : World) (ss : list MeetingSections.row) :
  ss = meetingSections (db w) →
  db (with_db w (set_meetingSections (db w) ss)) = db w.
Proof. intros ->. by destruct w as [[]]. Qed.

(** X2: a call that throws — UNAUTHORIZED, NOT_FOUND, or the database's
    refusal of a duplicate key or of the DELETE of a meeting that still has
    children — has written nothing: every table is as it
    was before the call. In particular [deleteMeeting] and [deleteSection],
    which run their DELETE before they test its result, throw only when the
    DELETE removed no row. *)
Theorem thrown_call_writes_nothing (context : ActionAPIContext) (w : World) (e : Error) :
  (∀ input, (createMeeting input context w).1 = Thrown e →
            db (createMeeting input context w).2 = db w) ∧
  (∀ input, (updateMeeting input context w).1 = Thrown e →
            db (updateMeeting input context w).2 = db w) ∧
  (∀ input, (deleteMeeting input context w).1 = Thrown e →
            db (deleteMeeting input context w).2 = db w) ∧
  (∀ input, (saveSection input context w).1 = Thrown e →
            db (saveSection input context w).2 = db w) ∧
  (∀ input, (deleteSection input context w).1 = Thrown e →
            db (deleteSection input context w).2 = db w) ∧
  (∀ input, (saveActionItem input context w).1 = Thrown e →
            db (saveActionItem input context w).2 = db w).
Proof.
  repeat split; intros input.
  - unfold createMeeting. handler_cases.
  - unfold updateMeeting. handler_cases.
  - unfold deleteMeeting. handler_cases. intros _.
    match goal with H : first _ = None |- _ => apply first_None in H end.
    apply with_db_set_meetings. by apply delete_none.
  - unfold saveSection. handler_cases.
  - unfold deleteSection. handler_cases. intros _.
    match goal with H : first (filter _ (meetingSections _)) = None |- _ =>
      apply first_None in H end.
    apply with_db_set_sections. by apply delete_none.
  - unfold saveActionItem. handler_cases.
Qed.

Lemma thrown_call_writes_nothing_witness :
  db (deleteMeeting {| DeleteMeeting.id := "m1" |}
        (signed_in Scenario.bob) Scenario.w0).2 = db Scenario.w0.
Proof.
  apply (proj1 (proj2 (proj2
    (thrown_call_writes_nothing (signed_in Scenario.bob) Scenario.w0
       (NotFound "Meeting not found."))))).
  reflexivity.
Defined.

(** ** Primary keys *)

(** The values [updateMeeting] hands to [.set(…)] name neither [id] nor
    [userId] nor [createdAt]. *)
Lemma patch_keeps_identity (input : UpdateMeeting.input) (now : Z) (r : Meetings.row) :
  let r' := set_Meetings (<["updatedAt" := VDate now]> (updateData (entries_rest input))) r in
  Meetings.id r' = Meetings.id r ∧
  Meetings.userId r' = Meetings.userId r ∧
  Meetings.createdAt r' = Meetings.createdAt r.
Proof.
  destruct (updateData_lookup input) as (_ & _ & _ & _ & _ & Hi & Hu & Hc & _).
  unfold set_Meetings; simpl.
  rewrite !lookup_insert_ne by done. by rewrite Hi, Hu, Hc.
Qed.

Lemma patched_ids (input : UpdateMeeting.input) (now : Z)
    (P : Meetings.row → Prop) `{!∀ r, Decision (P r)} (ms : list Meetings.row) :
  Meetings.id <$>
    ((λ r, if decide (P r)
           then set_Meetings (<["updatedAt" := VDate now]> (updateData (entries_rest input))) r
           else r) <$> ms)
  = Meetings.id <$> ms.
Proof.
  rewrite <- list_fmap_compose. apply list_fmap_ext. intros i r _. simpl.
  case_decide; [|done]. apply patch_keeps_identity.
Qed.

(** X3: the primary key of [Meetings] is an invariant of the handlers: from a
    table in which no two meetings share an id, every call of every handler —
    whatever its input and caller, returning or throwing — leads to such a
    table again. [createMeeting] is refused an id in use, [updateMeeting]
    never writes the [id] column, [deleteMeeting] only removes rows. *)
Theorem meetings_primary_key_kept (context : ActionAPIContext) (w : World) :
  pk_unique (meetings (db w)) →
  (∀ input, pk_unique (meetings (db (createMeeting input context w).2))) ∧
  (∀ input, pk_unique (meetings (db (updateMeeting input context w).2))) ∧
  pk_unique (meetings (db (listMeetings context w).2)) ∧
  (∀ input, pk_unique (meetings (db (deleteMeeting input context w).2))) ∧
  (∀ input, pk_unique (meetings (db (saveSection input context w).2))) ∧
  (∀ input, pk_unique (meetings (db (deleteSection input context w).2))) ∧
  (∀ input, pk_unique (meetings (db (saveActionItem input context w).2))) ∧
  (∀ input, pk_unique (meetings (db (listActionItems input context w).2))).
Proof.
  intros Hpk. repeat split; try intros input.
  - by apply createMeeting_keeps_pk.
  - unfold updateMeeting. handler_cases.
    unfold pk_unique. by rewrite patched_ids.
  - unfold listMeetings. handler_cases.
  - unfold deleteMeeting. handler_cases;
      (eapply sublist_NoDup; [exact Hpk|]);
      apply fmap_sublist, sublist_filter.
  - unfold saveSection. handler_cases.
  - unfold deleteSection. handler_cases.
  - unfold saveActionItem. handler_cases.
  - unfold listActionItems. handler_cases.
Qed.

Lemma meetings_primary_key_kept_witness :
  pk_unique
    (meetings (db (deleteMeeting {| DeleteMeeting.id := "m1" |}
                     (signed_in Scenario.alice) Scenario.w1).2)).
Proof.
  apply (meetings_primary_key_kept (signed_in Scenario.alice) Scenario.w1).
  unfold pk_unique. simpl. apply NoDup_cons. split.
  - intros H. apply list_elem_of_singleton in H. discriminate H.
  - apply NoDup_singleton.
Defined.

Section Keys.
Context {R : Type} (key : R → option string).

Lemma omap_fmap_key (f : R → R) (t : list R) :
  (∀ r, key (f r) = key r) → omap key (f <$> t) = omap key t.
Proof.
  intros Hf. induction t as [|x t IH]; [done|].
  rewrite fmap_cons. simpl. rewrite Hf.
  destruct (key x); [f_equal|]; exact IH.
Qed.

Lemma omap_filter_sublist (P : R → Prop) `{!∀ r, Decision (P r)} (t : list R) :
  omap key (filter P t) `sublist_of` omap key t.
Proof.
  induction t as [|x t IH]; [done|].
  rewrite filter_cons. destruct (decide (P x)); simpl.
  - destruct (key x); [by apply sublist_skip|done].
  - destruct (key x); [by apply sublist_cons|done].
Qed.
End Keys.

(** X4: the primary keys of [MeetingSections] and [ActionItems] are
    invariants too: if the section ids that are not NULL are pairwise
    distinct before a [saveSection] or [deleteSection] call, they are after
    it, and so for the action item ids and [saveActionItem] — whatever the
    input and the caller, and whether the call returns or throws. The rows
    the two [save] handlers insert have no id and so collide with none; an
    update writes every column but [id]; a delete only removes rows. *)
Theorem children_primary_keys_kept (context : ActionAPIContext) (w : World) :
  (ids_unique_sections (meetingSections (db w)) →
     (∀ input, ids_unique_sections (meetingSections (db (saveSection input context w).2))) ∧
     (∀ input, ids_unique_sections (meetingSections (db (deleteSection input context w).2)))) ∧
  (ids_unique_items (actionItems (db w)) →
     ∀ input, ids_unique_items (actionItems (db (saveActionItem input context w).2))).
Proof.
  unfold ids_unique_sections, ids_unique_items.
  split; [intros Hpk; split|intros Hpk]; intros input.
  - unfold saveSection. handler_cases.
    + rewrite (omap_fmap_key MeetingSections.id); [done|].
      intros ?. by destruct (decide (eq_null _ _)).
    + rewrite omap_app. simpl. by rewrite app_nil_r.
    + rewrite omap_app. simpl. by rewrite app_nil_r.
  - unfold deleteSection. handler_cases;
      (eapply sublist_NoDup; [exact Hpk|]); apply omap_filter_sublist.
  - unfold saveActionItem. handler_cases.
    + rewrite (omap_fmap_key ActionItems.id); [done|].
      intros ?. by destruct (decide (eq_null _ _)).
    + rewrite omap_app. simpl. by rewrite app_nil_r.
    + rewrite omap_app. simpl. by rewrite app_nil_r.
Qed.

(** In [w2], with three sections stored: user A rewrites [s1]. *)
Lemma children_primary_keys_kept_witness :
  ids_unique_sections
    (meetingSections
       (db (saveSection (Scenario.notes (Some "s1") "bye")
              (signed_in Scenario.alice) Scenario.w2).2)).
Proof.
  apply (children_primary_keys_kept (signed_in Scenario.alice) Scenario.w2).
  apply (bool_decide_unpack _). vm_compute. exact I.
Defined.

(** ** What a caller cannot reach *)

(** A rewrite of the rows that leaves the rows satisfying [P] alone, and
    moves no other row into [P], leaves the [P] part of the table alone. *)
Lemma filter_fmap_frame {R} (P : R → Prop) `{!∀ r, Decision (P r)}
    (f : R → R) (t : list R) :
  (∀ r, r ∈ t → P r → f r = r) →
  (∀ r, r ∈ t → ¬ P r → ¬ P (f r)) →
  filter P (f <$> t) = filter P t.
Proof.
  induction t as [|x t IH]; intros Hkeep Hout; [done|].
  rewrite fmap_cons, !filter_cons.
  rewrite IH by (intros; (apply Hkeep || apply Hout); [by right|done]).
  destruct (decide (P x)) as [HP|HP].
  - rewrite (Hkeep x) by (by left || done). by rewrite decide_True.
  - rewrite decide_False; [done|]. apply Hout; [by left|done].
Qed.

Lemma filter_filter_frame {R} (P Q : R → Prop)
    `{!∀ r, Decision (P r), !∀ r, Decision (Q r)} (t : list R) :
  (∀ r, r ∈ t → P r → ¬ Q r) →
  filter P (filter (λ r, ¬ Q r) t) = filter P t.
Proof.
  intros HPQ. induction t as [|x t IH]; [done|].
  rewrite !filter_cons.
  rewrite <- IH by (intros; apply HPQ; [by right|done]).
  destruct (decide (P x)) as [HP|HP].
  - rewrite decide_True by (apply HPQ; [by left|done]).
    by rewrite filter_cons_True.
  - destruct (decide (¬ Q x)); [by rewrite filter_cons_False|done].
Qed.

(** X5: a caller never changes another user's meeting. Whatever [u] passes
    to [createMeeting], [updateMeeting] or [deleteMeeting], the meetings that
    are not [u]'s are the same rows, in the same order, after the call: the
    owner condition is part of every UPDATE and DELETE, a new meeting belongs
    to its creator, and [updateMeeting] never writes [userId]. *)
Theorem meetings_of_others_untouched (u : User) (w : World) :
  let others := filter (λ m, Meetings.userId m ≠ user_id u) in
  (∀ input, others (meetings (db (createMeeting input (signed_in u) w).2))
            = others (meetings (db w))) ∧
  (∀ input, others (meetings (db (updateMeeting input (signed_in u) w).2))
            = others (meetings (db w))) ∧
  (∀ input, others (meetings (db (deleteMeeting input (signed_in u) w).2))
            = others (meetings (db w))).
Proof.
  repeat split; intros input.
  - unfold createMeeting. handler_cases;
      rewrite filter_app, filter_cons_False, filter_nil by (simpl; tauto);
      by rewrite app_nil_r.
  - unfold updateMeeting. handler_cases.
    apply filter_fmap_frame.
    + intros x _ Hx. rewrite decide_False; [done|]. by intros [_ ?].
    + intros x _ Hx. destruct (decide (owned _ _ x)); [|done].
      by rewrite (proj1 (proj2 (patch_keeps_identity _ _ x))).
  - unfold deleteMeeting. handler_cases;
      apply filter_filter_frame; by intros x _ Hx [_ ?].
Qed.

Lemma first_match_sound {R} (P : R → Prop) `{!∀ r, Decision (P r)}
    (t : list R) (x : R) :
  first (limit 1 (filter P t)) = Some x → x ∈ t ∧ P x.
Proof.
  rewrite first_limit. intros Hx.
  assert (x ∈ filter P t) as Hin.
  { destruct (filter P t) as [|y l]; [done|]. injection Hx as ->. left. }
  apply list_elem_of_filter in Hin. tauto.
Qed.

Lemma owned_lookup_owns (u : User) (mid : string) (d : Database) (m : Meetings.row) :
  first (limit 1 (filter (owned mid (user_id u)) (meetings d))) = Some m →
  owns u mid d.
Proof.
  intros Hm. apply first_match_sound in Hm as [Hin [Hid Hu]]. by exists m.
Qed.

(** The section table after a [saveSection] call: as before, or — the caller
    owning the meeting supplied — with one row appended, or with the rows
    under the id supplied rewritten, a stored section of the meeting
    supplied being among them. *)
Lemma saveSection_db (input : SaveSection.input) (u : User) (w : World) :
  let before := meetingSections (db w) in
  let after := meetingSections (db (saveSection input (signed_in u) w).2) in
  let base := section_baseValues input (dates w (date_calls w)) in
  after = before ∨
  owns u (SaveSection.meetingId input) (db w) ∧
  (after = (before ++ [values_MeetingSections base])%list ∨
   ∃ (i : string) (s : MeetingSections.row),
     s ∈ before ∧ MeetingSections.id s = Some i ∧
     MeetingSections.meetingId s = SaveSection.meetingId input ∧
     after = (λ r, if decide (eq_null (MeetingSections.id r) i)
                   then set_MeetingSections base r else r) <$> before).
Proof.
  unfold saveSection. handler_cases; try by left.
  - right. split; [by eapply owned_lookup_owns|]. right.
    match goal with
    | H : first (limit 1 (filter _ (meetingSections _))) = Some ?x,
      Hi : SaveSection.id input = Some ?i |- _ =>
        apply first_match_sound in H as [Hin Hid]; exists i, x
    end.
    repeat split; try done.
    by destruct (decide (MeetingSections.meetingId r0 = SaveSection.meetingId input)).
  - right. split; [by eapply owned_lookup_owns|]. by left.
  - right. split; [by eapply owned_lookup_owns|]. by left.
Qed.

Lemma saveActionItem_db (input : SaveActionItem.input) (u : User) (w : World) :
  let before := actionItems (db w) in
  let after := actionItems (db (saveActionItem input (signed_in u) w).2) in
  let base := item_baseValues input (dates w (date_calls w))
                (dates w (S (date_calls w))) in
  after = before ∨
  owns u (SaveActionItem.meetingId input) (db w) ∧
  (after = (before ++ [values_ActionItems base])%list ∨
   ∃ (i : string) (a : ActionItems.row),
     a ∈ before ∧ ActionItems.id a = Some i ∧
     ActionItems.meetingId a = SaveActionItem.meetingId input ∧
     after = (λ r, if decide (eq_null (ActionItems.id r) i)
                   then set_ActionItems base r else r) <$> before).
Proof.
  unfold saveActionItem. handler_cases; try by left.
  - right. split; [by eapply owned_lookup_owns|]. right.
    match goal with
    | H : first (limit 1 (filter _ (actionItems _))) = Some ?x,
      Hi : SaveActionItem.id input = Some ?i |- _ =>
        apply first_match_sound in H as [Hin Hid]; exists i, x
    end.
    repeat split; try done.
    by destruct (decide (ActionItems.meetingId r0 = SaveActionItem.meetingId input)).
  - right. split; [by eapply owned_lookup_owns|]. by left.
  - right. split; [by eapply owned_lookup_owns|]. by left.
Qed.

Lemma deleteSection_db (input : DeleteSection.input) (u : User) (w : World) :
  let before := meetingSections (db w) in
  let after := meetingSections (db (deleteSection input (signed_in u) w).2) in
  after = before ∨
  owns u (DeleteSection.meetingId input) (db w) ∧
  after = filter (λ s, ¬ (eq_null (MeetingSections.id s) (DeleteSection.id input)
                          ∧ MeetingSections.meetingId s = DeleteSection.meetingId input))
            before.
Proof.
  unfold deleteSection. handler_cases; try by left.
  - right. split; [by eapply owned_lookup_owns|done].
  - right. split; [by eapply owned_lookup_owns|done].
Qed.

Lemma context_cases (context : ActionAPIContext) :
  unresolved context ∨ ∃ u, context = signed_in u.
Proof.
  destruct context as [[[[u|]]|]]; [right; by exists u | by left | by left].
Qed.





(** X8: a row stored without an id is out of reach of the handlers. Whatever
    id, meeting and caller a [saveSection], [deleteSection] or
    [saveActionItem] call comes with, the sections (the action items) whose
    [id] is NULL are afterwards the ones there were, unchanged and in order —
    plus, after a [save], possibly the new one: an UPDATE or DELETE by id
    never matches them. These are the rows the [save] handlers insert. *)
Theorem rows_without_id_out_of_reach (context : ActionAPIContext) (w : World) :
  (∀ input,
     filter (λ s, MeetingSections.id s = None) (meetingSections (db w))
     `prefix_of`
     filter (λ s, MeetingSections.id s = None)
       (meetingSections (db (saveSection input context w).2))) ∧
  (∀ input,
     filter (λ s, MeetingSections.id s = None)
       (meetingSections (db (deleteSection input context w).2))
     = filter (λ s, MeetingSections.id s = None) (meetingSections (db w))) ∧
  (∀ input,
     filter (λ a, ActionItems.id a = None) (actionItems (db w))
     `prefix_of`
     filter (λ a, ActionItems.id a = None)
       (actionItems (db (saveActionItem input context w).2))).
Proof.
  repeat split; intros input;
    (destruct (context_cases context) as [Hun|[u ->]];
     [unfold saveSection, deleteSection, saveActionItem;
      by rewrite requireUser_unresolved|]).
  - destruct (saveSection_db input u w)
      as [->|[_ [->|(i & s & Hs & Hid & Hmid & ->)]]]; [done| |].
    + rewrite filter_app. by apply prefix_app_r.
    + rewrite filter_fmap_frame; [done| |].
      * intros x _ Hnull. rewrite decide_False; [done|].
        unfold eq_null. by rewrite Hnull.
      * intros x _ Hx. by destruct (decide (eq_null _ i)).
  - destruct (deleteSection_db input u w) as [->|[_ ->]]; [done|].
    apply filter_filter_frame. intros x _ Hnull [Hx _].
    unfold eq_null in Hx. by rewrite Hnull in Hx.
  - destruct (saveActionItem_db input u w)
      as [->|[_ [->|(i & a & Ha & Hid & Hmid & ->)]]]; [done| |].
    + rewrite filter_app. by apply prefix_app_r.
    + rewrite filter_fmap_frame; [done| |].
      * intros x _ Hnull. rewrite decide_False; [done|].
        unfold eq_null. by rewrite Hnull.
      * intros x _ Hx. by destruct (decide (eq_null _ i)).
Qed.

(** ** Deleting *)

Lemma filter_iff_in {R} (P Q : R → Prop)
    `{!∀ r, Decision (P r), !∀ r, Decision (Q r)} (t : list R) :
  (∀ r, r ∈ t → (P r ↔ Q r)) → filter P t = filter Q t.
Proof.
  induction t as [|x t IH]; intros HPQ; [done|].
  rewrite !filter_cons, IH by (intros; apply HPQ; by right).
  destruct (decide (P x)) as [HP|HP].
  - by rewrite decide_True by (by apply HPQ; [left|]).
  - rewrite decide_False; [done|]. intros HQ. apply HP. by apply HPQ; [left|].
Qed.

(** X9: the owner deletes a meeting.
    - While a section or an action item refers to the meeting the database
      refuses the DELETE: the call throws its constraint error and the world
      is as before — a meeting that has children cannot be deleted, there is
      no cascade and no handler removes action items.
    - Otherwise the call removes exactly the rows under that id, so the
      meeting is gone, and returns the stored row (as the driver reads it
      back: the row itself when it is intact); from then on the id is unknown
      even to its former owner: a second [deleteMeeting] and an
      [updateMeeting] with it throw NOT_FOUND and change nothing. *)
Theorem deleteMeeting_by_owner
    (w : World) (u : User) (m : Meetings.row) (input : DeleteMeeting.input) :
  pk_unique (meetings (db w)) →
  m ∈ meetings (db w) →
  Meetings.userId m = user_id u →
  DeleteMeeting.id input = Meetings.id m →
  let w' := (deleteMeeting input (signed_in u) w).2 in
  (referenced (db w) m →
     deleteMeeting input (signed_in u) w = (Thrown SqliteConstraint, w)) ∧
  (¬ referenced (db w) m →
     (intact_meeting m → (deleteMeeting input (signed_in u) w).1 = Ok m) ∧
     meetings (db w') = filter (λ x, Meetings.id x ≠ Meetings.id m) (meetings (db w)) ∧
     (m ∉ meetings (db w')) ∧
     deleteMeeting input (signed_in u) w' = (Thrown (NotFound "Meeting not found."), w') ∧
     ∀ update, UpdateMeeting.id update = Meetings.id m →
       updateMeeting update (signed_in u) w' = (Thrown (NotFound "Meeting not found."), w')).
Proof.
  intros Hpk Hm Hu Hid.
  pose proof (updateMeeting_owner_lookup w u m Hpk Hm Hu) as Hsel.
  assert (Exists (referenced (db w)) [m] ↔ referenced (db w) m) as Hone.
  { rewrite Exists_cons, Exists_nil. tauto. }
  simpl. split.
  - intros Href. unfold deleteMeeting. run_handler.
    rewrite Hid, Hsel. by rewrite decide_True by by apply Hone.
  - intros Hfree.
    assert (filter (λ x, ¬ owned (Meetings.id m) (user_id u) x) (meetings (db w))
            = filter (λ x, Meetings.id x ≠ Meetings.id m) (meetings (db w))) as Hrest.
    { apply filter_iff_in. intros x Hx. split.
      - intros Hnot Heq. apply Hnot. split; [done|].
        by rewrite (pk_unique_row _ x m Hpk Hx Hm Heq).
      - by intros Hne [Heq _]. }
    assert (filter (owned (Meetings.id m) (user_id u))
              (filter (λ x, Meetings.id x ≠ Meetings.id m) (meetings (db w))) = [])
      as Hgone.
    { apply filter_none. intros x Hx [Heq _].
      apply list_elem_of_filter in Hx as [Hne _]. done. }
    assert ((deleteMeeting input (signed_in u) w)
            = (Ok m, with_db w (set_meetings (db w)
                        (filter (λ x, Meetings.id x ≠ Meetings.id m) (meetings (db w))))))
      as Hrun.
    { unfold deleteMeeting. run_handler. unfold delete. simpl.
      rewrite Hid, Hsel. rewrite decide_False by by rewrite Hone.
      simpl. by rewrite Hrest. }
    rewrite Hrun. simpl. repeat split.
    + intros Hin. apply list_elem_of_filter in Hin as [Hne _]. done.
    + unfold deleteMeeting. run_handler. unfold delete. simpl.
      rewrite Hid, Hgone. rewrite decide_False by (by intros ?%Exists_nil).
      simpl. rewrite (delete_none _ _ Hgone). simpl.
      by rewrite set_meetings_same, with_db_same.
    + intros update Hupd. unfold updateMeeting. run_handler. unfold select.
      by rewrite Hupd, Hgone.
Qed.

(** In [w2] user A cannot delete [m1], which has a section and an action
    item, and deletes [m4], which has none. *)
Lemma deleteMeeting_by_owner_witness :
  deleteMeeting {| DeleteMeeting.id := "m1" |} (signed_in Scenario.alice) Scenario.w2
    = (Thrown SqliteConstraint, Scenario.w2) ∧
  (deleteMeeting {| DeleteMeeting.id := "m4" |}
     (signed_in Scenario.alice) Scenario.w2).1 = Ok Scenario.m4 ∧
  meetings (db (deleteMeeting {| DeleteMeeting.id := "m4" |}
                  (signed_in Scenario.alice) Scenario.w2).2)
    = [Scenario.m1; Scenario.m2; Scenario.m3].
Proof.
  assert (pk_unique (meetings (db Scenario.w2))) as Hpk.
  { apply (bool_decide_unpack _). vm_compute. exact I. }
  split.
  - apply (deleteMeeting_by_owner Scenario.w2 Scenario.alice Scenario.m1
             {| DeleteMeeting.id := "m1" |} Hpk).
    + left.
    + reflexivity.
    + reflexivity.
    + left. left.
  - destruct (proj2 (deleteMeeting_by_owner Scenario.w2 Scenario.alice Scenario.m4
                       {| DeleteMeeting.id := "m4" |} Hpk
                       ltac:(do 3 right; left) eq_refl eq_refl))
      as (Hret & Htable & _).
    + apply (bool_decide_unpack _). vm_compute. exact I.
    + split; [|exact Htable]. apply Hret.
      unfold intact_meeting. simpl. split_and!; try reflexivity; intros ? [=].
Defined.




(** ** Saving and listing *)




(** X12: for the two [save] handlers the empty string as id is no id: the
    call does, for every caller and world, exactly what the call without an
    id does — it inserts a new row and never looks at the row stored under
    the empty string. *)
Theorem save_with_empty_id_inserts (context : ActionAPIContext) (w : World) :
  (∀ meetingId type orderIndex content,
     saveSection
       {| SaveSection.id := Some ""; SaveSection.meetingId := meetingId;
          SaveSection.type := type; SaveSection.orderIndex := orderIndex;
          SaveSection.content := content |} context w
     = saveSection
         {| SaveSection.id := None; SaveSection.meetingId := meetingId;
            SaveSection.type := type; SaveSection.orderIndex := orderIndex;
            SaveSection.content := content |} context w) ∧
  (∀ meetingId assignee description dueDate status,
     saveActionItem
       {| SaveActionItem.id := Some ""; SaveActionItem.meetingId := meetingId;
          SaveActionItem.assignee := assignee;
          SaveActionItem.description := description;
          SaveActionItem.dueDate := dueDate; SaveActionItem.status := status |}
       context w
     = saveActionItem
         {| SaveActionItem.id := None; SaveActionItem.meetingId := meetingId;
            SaveActionItem.assignee := assignee;
            SaveActionItem.description := description;
            SaveActionItem.dueDate := dueDate; SaveActionItem.status := status |}
         context w).
Proof. split; intros; reflexivity. Qed.

(** ** Creating *)

Lemma createMeeting_fresh (w : World) (u : User) (input : CreateMeeting.input) :
  chosen_id input w ∉ Meetings.id <$> meetings (db w) →
  ∃ m : Meetings.row,
    (createMeeting input (signed_in u) w).1 = Ok (Some m) ∧
    db (createMeeting input (signed_in u) w).2
      = set_meetings (db w) (meetings (db w) ++ [m]) ∧
    Meetings.id m = chosen_id input w ∧
    Meetings.userId m = user_id u ∧
    Meetings.title m = CreateMeeting.title input ∧
    Meetings.sourceType m = CreateMeeting.sourceType input ∧
    Meetings.sourceUrl m = CreateMeeting.sourceUrl input ∧
    Meetings.scheduledAt m = CreateMeeting.scheduledAt input ∧
    Meetings.durationMinutes m = CreateMeeting.durationMinutes input ∧
    Meetings.createdAt m = dates w (date_calls w) ∧
    Meetings.updatedAt m = dates w (S (date_calls w)).
Proof.
  unfold chosen_id, createMeeting. intros Hfresh.
  destruct (CreateMeeting.id input) as [i|]; handler_cases;
    eexists; repeat split; reflexivity.
Qed.

(** X13: a meeting is created under the id the caller supplies, taken as it
    is, or under a drawn identifier when none is supplied. In a world whose
    stored meetings are intact, when that id is not in use and the values to
    store are intact (no U+0000 in a text, a duration below 2^53), the call
    returns the new row — the caller as [userId], the input's values, both
    time stamps read from the clock — and the row is then the last one
    [listMeetings] returns to the caller, after the meetings the caller had;
    what [listMeetings] returns to any other user is what it returned
    before. *)
Theorem createMeeting_then_listMeetings
    (w : World) (u : User) (input : CreateMeeting.input) :
  Forall intact_meeting (meetings (db w)) →
  intact_text (chosen_id input w) →
  intact_text (user_id u) →
  intact_text (CreateMeeting.title input) →
  (∀ s, CreateMeeting.sourceType input = Some s → intact_text s) →
  (∀ s, CreateMeeting.sourceUrl input = Some s → intact_text s) →
  (∀ n, CreateMeeting.durationMinutes input = Some n → safe_integer n) →
  chosen_id input w ∉ Meetings.id <$> meetings (db w) →
  let w' := (createMeeting input (signed_in u) w).2 in
  ∃ m : Meetings.row,
    (createMeeting input (signed_in u) w).1 = Ok (Some m) ∧
    intact_meeting m ∧
    Meetings.id m = chosen_id input w ∧
    Meetings.userId m = user_id u ∧
    Meetings.title m = CreateMeeting.title input ∧
    Meetings.sourceType m = CreateMeeting.sourceType input ∧
    Meetings.sourceUrl m = CreateMeeting.sourceUrl input ∧
    Meetings.scheduledAt m = CreateMeeting.scheduledAt input ∧
    Meetings.durationMinutes m = CreateMeeting.durationMinutes input ∧
    Meetings.createdAt m = dates w (date_calls w) ∧
    Meetings.updatedAt m = dates w (S (date_calls w)) ∧
    (∃ before, (listMeetings (signed_in u) w).1 = Ok before ∧
               (listMeetings (signed_in u) w').1 = Ok (before ++ [m])%list) ∧
    (∀ v, user_id v ≠ user_id u →
          (listMeetings (signed_in v) w').1 = (listMeetings (signed_in v) w).1).
Proof.
  intros _ Hiid Hiu Hit Hist Hisu Hidm Hfresh.
  destruct (createMeeting_fresh w u input Hfresh)
    as (m & Hret & Hdb & Hid & Hu & Ht & Hst & Hsu & Hsa & Hdm & Hc & Hup).
  simpl. exists m. split; [done|]. split.
  { unfold intact_meeting. by rewrite Hid, Hu, Ht, Hst, Hsu, Hdm. }
  do 9 (split; [done|]).
  unfold listMeetings. run_handler. unfold select. rewrite Hdb. simpl. split.
  - eexists. split; [done|].
    by rewrite filter_app, filter_cons_True, filter_nil.
  - intros v Hv.
    rewrite filter_app, filter_cons_False, filter_nil by (by rewrite Hu).
    by rewrite app_nil_r.
Qed.

(** In [w2] user B creates a meeting without supplying an id. *)
Lemma createMeeting_then_listMeetings_witness :
  ∃ m : Meetings.row,
    (createMeeting
       {| CreateMeeting.id := None; CreateMeeting.title := "Retro";
          CreateMeeting.sourceType := Some "upload"; CreateMeeting.sourceUrl := None;
          CreateMeeting.scheduledAt := None; CreateMeeting.durationMinutes := Some 30 |}
       (signed_in Scenario.bob) Scenario.w2).1 = Ok (Some m) ∧
    Meetings.id m = "c41e9d52" ∧ Meetings.userId m = "B" ∧
    Meetings.durationMinutes m = Some 30.
Proof.
  destruct (createMeeting_then_listMeetings Scenario.w2 Scenario.bob
              {| CreateMeeting.id := None; CreateMeeting.title := "Retro";
                 CreateMeeting.sourceType := Some "upload";
                 CreateMeeting.sourceUrl := None;
                 CreateMeeting.scheduledAt := None;
                 CreateMeeting.durationMinutes := Some 30 |})
    as (m & Hret & _ & Hid & Hu & _ & _ & _ & _ & Hdm & _).
  - repeat (apply Forall_cons_2 || apply Forall_nil_2);
      unfold intact_meeting; simpl; split_and!; try reflexivity;
      intros ? [= <-]; try reflexivity; unfold safe_integer; lia.
  - reflexivity.
  - reflexivity.
  - reflexivity.
  - intros ? [= <-]. reflexivity.
  - intros ? [=].
  - intros ? [= <-]. unfold safe_integer. lia.
  - apply (bool_decide_unpack _). vm_compute. exact I.
  - exists m. split; [exact Hret|]. split; [exact Hid|]. split; [exact Hu | exact Hdm].
Defined.

(** X14: [createMeeting] never replaces or removes a stored meeting: the
    meetings there were are, row for row, the first meetings after the call.
    With an id already in use — the caller's own meeting or anybody else's —
    the call is refused by the database's primary key and no table changes. *)
Theorem createMeeting_never_overwrites
    (context : ActionAPIContext) (w : World) (input : CreateMeeting.input) :
  meetings (db w) `prefix_of` meetings (db (createMeeting input context w).2) ∧
  ∀ u, chosen_id input w ∈ Meetings.id <$> meetings (db w) →
       (createMeeting input (signed_in u) w).1 = Thrown SqliteConstraint ∧
       db (createMeeting input (signed_in u) w).2 = db w.
Proof.
  split.
  - unfold createMeeting. handler_cases; by apply prefix_app_r.
  - unfold chosen_id, createMeeting. intros u Hin.
    destruct (CreateMeeting.id input) as [i|]; handler_cases.
Qed.

Lemma createMeeting_never_overwrites_witness :
  (createMeeting
     {| CreateMeeting.id := Some "m1"; CreateMeeting.title := "Mine now";
        CreateMeeting.sourceType := None; CreateMeeting.sourceUrl := None;
        CreateMeeting.scheduledAt := None; CreateMeeting.durationMinutes := None |}
     (signed_in Scenario.bob) Scenario.w0).1 = Thrown SqliteConstraint.
Proof.
  apply (createMeeting_never_overwrites (signed_in Scenario.bob) Scenario.w0).
  apply list_elem_of_singleton. reflexivity.
Defined.

(** ** What the list handlers show *)


